(** * upgrade_fbx: the command-line entry point and the toolkit it drives

    [src/tools/upgrade_fbx.cpp] is one function, [main], which calls the FBX
    SDK in a fixed order and branches on three of its answers.  The SDK is
    closed: nothing is known of it but the signatures of the functions that
    [main] calls.  The embedding therefore keeps the two apart.

    - [main] is a finite interaction tree ([prog]): a node is a call of the
      SDK with the continuation that receives its answer, an insertion into
      [std::cout], a [return], or undefined behaviour (a member call through
      a null pointer).
    - The SDK is any function from calls and worlds to answers and worlds
      ([toolkit]).  [run] executes a program against a toolkit and records
      every call with its answer and every insertion into [std::cout].

    Every theorem about [main] is stated for all toolkits and all worlds. *)

From Stdlib Require Import ZArith NArith List String Ascii Bool Lia.
Import ListNotations.
Local Open Scope list_scope.
Local Open Scope string_scope.

(** ** Objects of the toolkit *)

(** The classes whose objects [main] holds a pointer to. *)
Inductive class : Type :=
| FbxManager
| FbxIOSettings
| FbxImporter
| FbxScene
| FbxExporter.

(** A pointer [C*], typed by its class as in the source; address 0 is null. *)
Record ptr (C : class) : Type := Ptr { addr : N }.
Arguments Ptr {C} addr.
Arguments addr {C} p.

Definition is_null {C : class} (p : ptr C) : bool := (addr p =? 0)%N.

Definition class_eqb (a b : class) : bool :=
  match a, b with
  | FbxManager, FbxManager
  | FbxIOSettings, FbxIOSettings
  | FbxImporter, FbxImporter
  | FbxScene, FbxScene
  | FbxExporter, FbxExporter => true
  | _, _ => false
  end.

(** An object, whatever its class: what a release call or a creation call
    is about. *)
Definition object : Type := (class * N)%type.

Definition obj {C : class} (p : ptr C) : object := (C, addr p).

Definition object_eqb (a b : object) : bool :=
  class_eqb (fst a) (fst b) && (snd a =? snd b)%N.

(** ** The calls [main] makes

    One constructor per function of the SDK that [main] calls, with the
    arguments of the call.  [GetStatus().GetErrorString()] is one call.
    [Destroy] on an importer or an exporter is [FbxObject::Destroy];
    the manager has a [Destroy] of its own. *)
Inductive call : Type :=
| FbxManager_Create
| FbxIOSettings_Create (pManager : ptr FbxManager) (pName : string)
| FbxManager_SetIOSettings (self : ptr FbxManager) (pIOSettings : ptr FbxIOSettings)
| FbxManager_GetIOSettings (self : ptr FbxManager)
| FbxImporter_Create (pManager : ptr FbxManager) (pName : string)
| FbxImporter_Initialize (self : ptr FbxImporter) (pFileName : string)
    (pFileFormat : Z) (pIOSettings : ptr FbxIOSettings)
| FbxImporter_GetErrorString (self : ptr FbxImporter)
| FbxScene_Create (pManager : ptr FbxManager) (pName : string)
| FbxImporter_Import (self : ptr FbxImporter) (pDocument : ptr FbxScene)
| FbxObject_Destroy (C : class) (self : ptr C)
| FbxExporter_Create (pManager : ptr FbxManager) (pName : string)
| FbxExporter_Initialize (self : ptr FbxExporter) (pFileName : string)
    (pFileFormat : Z) (pIOSettings : ptr FbxIOSettings)
| FbxExporter_GetErrorString (self : ptr FbxExporter)
| FbxExporter_Export (self : ptr FbxExporter) (pDocument : ptr FbxScene)
| FbxManager_Destroy (self : ptr FbxManager).

(** The type of the answer of each call. *)
Definition result (c : call) : Type :=
  match c with
  | FbxManager_Create => ptr FbxManager
  | FbxIOSettings_Create _ _ => ptr FbxIOSettings
  | FbxManager_SetIOSettings _ _ => unit
  | FbxManager_GetIOSettings _ => ptr FbxIOSettings
  | FbxImporter_Create _ _ => ptr FbxImporter
  | FbxImporter_Initialize _ _ _ _ => bool
  | FbxImporter_GetErrorString _ => string
  | FbxScene_Create _ _ => ptr FbxScene
  | FbxImporter_Import _ _ => bool
  | FbxObject_Destroy _ _ => unit
  | FbxExporter_Create _ _ => ptr FbxExporter
  | FbxExporter_Initialize _ _ _ _ => bool
  | FbxExporter_GetErrorString _ => string
  | FbxExporter_Export _ _ => bool
  | FbxManager_Destroy _ => unit
  end.

(** ** Programs over the toolkit *)

Inductive prog (R : Type) : Type :=
| Return (r : R)
| Undefined
| Cout (s : string) (k : prog R)
| Call (c : call) (k : result c -> prog R).
Arguments Return {R} r.
Arguments Undefined {R}.
Arguments Cout {R} s k.
Arguments Call {R} c k.

Fixpoint bind {A B : Type} (m : prog A) (f : A -> prog B) : prog B :=
  match m with
  | Return a => f a
  | Undefined => Undefined
  | Cout s k => Cout s (bind k f)
  | Call c k => Call c (fun r => bind (k r) f)
  end.

Definition call_ (c : call) : prog (result c) := Call c Return.
Definition cout (s : string) : prog unit := Cout s (Return tt).

(** [p->f(...)]: the member call is undefined when [p] is null. *)
Definition deref {C : class} (p : ptr C) : prog unit :=
  if is_null p then Undefined else Return tt.

Declare Scope prog_scope.
Delimit Scope prog_scope with prog.
Notation "x <- m ;; k" := (bind m (fun x => k))
  (at level 61, m at next level, right associativity) : prog_scope.
Notation "m ;; k" := (bind m (fun _ => k))
  (at level 61, right associativity) : prog_scope.

(** ** Running a program against a toolkit *)

(** A toolkit over worlds [W]: what each call answers and how it changes the
    world (the file system, the objects of the SDK, anything else). *)
Definition toolkit (W : Type) : Type := forall c : call, W -> result c * W.

Inductive event : Type :=
| Called (c : call) (r : result c)
| Printed (s : string).

Inductive outcome (R : Type) : Type :=
| Exit (r : R)
| Crash.
Arguments Exit {R} r.
Arguments Crash {R}.

(** What an execution leaves: the calls and the output in the order they
    happened, how the program ended, and the world at that point. *)
Record execution (W R : Type) : Type := Execution {
  trace : list event;
  status : outcome R;
  final : W
}.
Arguments Execution {W R} trace status final.
Arguments trace {W R} e.
Arguments status {W R} e.
Arguments final {W R} e.

Definition after {W R : Type} (e : event) (x : execution W R) : execution W R :=
  Execution (e :: trace x) (status x) (final x).

Fixpoint run {W R : Type} (tk : toolkit W) (p : prog R) (w : W) : execution W R :=
  match p with
  | Return r => Execution [] (Exit r) w
  | Undefined => Execution [] Crash w
  | Cout s k => after (Printed s) (run tk k w)
  | Call c k =>
      let rw := tk c w in
      after (Called c (fst rw)) (run tk (k (fst rw)) (snd rw))
  end.

(** ** [main] *)

Definition endl : string := String (ascii_of_nat 10) EmptyString.

Section Main.

(** [IOSROOT] is a macro of [fbxsdk.h]; its text is not in the repository. *)
Variable IOSROOT : string.

Local Open Scope prog_scope.

(** [main], statement by statement.

    - [argv] holds [argc] strings and [argv[argc]] is the null pointer: with
      [argc = 0] the usage statement inserts a null [char*] into the stream,
      which is undefined.
    - The operands of a chain of [<<] are evaluated from the left, so
      "Error returned: " is written before [GetErrorString] is called.
    - The arguments of [Initialize] are evaluated before the call is made
      through the importer or the exporter; neither pointer is tested by
      the source, so the call is undefined when it is null.
    - The answers of [Import] and [Export] are dropped. *)
Definition main (argv : list string) : prog Z :=
  let argc := Z.of_nat (List.length argv) in
  if negb (argc =? 3)%Z then
    cout "Usage: " ;;
    match argv with
    | [] => Undefined
    | argv0 :: _ =>
        cout argv0 ;; cout " <input.fbx> <output.fbx>" ;; cout endl ;;
        Return 1%Z
    end
  else
    let inputFile := nth 1 argv "" in
    let outputFile := nth 2 argv "" in
    sdkManager <- call_ FbxManager_Create ;;
    if is_null sdkManager then
      cout "Error: Unable to create FBX Manager!" ;; cout endl ;;
      Return 1%Z
    else
      ios <- call_ (FbxIOSettings_Create sdkManager IOSROOT) ;;
      call_ (FbxManager_SetIOSettings sdkManager ios) ;;
      importer <- call_ (FbxImporter_Create sdkManager "") ;;
      settings <- call_ (FbxManager_GetIOSettings sdkManager) ;;
      deref importer ;;
      importStatus <- call_ (FbxImporter_Initialize importer inputFile (-1) settings) ;;
      if negb importStatus then
        cout "Error: Unable to initialize FBX importer!" ;; cout endl ;;
        cout "Error returned: " ;;
        err <- call_ (FbxImporter_GetErrorString importer) ;;
        cout err ;; cout endl ;;
        Return 1%Z
      else
        scene <- call_ (FbxScene_Create sdkManager "") ;;
        call_ (FbxImporter_Import importer scene) ;;
        call_ (FbxObject_Destroy FbxImporter importer) ;;
        exporter <- call_ (FbxExporter_Create sdkManager "") ;;
        settings' <- call_ (FbxManager_GetIOSettings sdkManager) ;;
        deref exporter ;;
        exportStatus <- call_ (FbxExporter_Initialize exporter outputFile (-1) settings') ;;
        if negb exportStatus then
          cout "Error: Unable to initialize FBX exporter!" ;; cout endl ;;
          cout "Error returned: " ;;
          err <- call_ (FbxExporter_GetErrorString exporter) ;;
          cout err ;; cout endl ;;
          Return 1%Z
        else
          call_ (FbxExporter_Export exporter scene) ;;
          call_ (FbxObject_Destroy FbxExporter exporter) ;;
          call_ (FbxManager_Destroy sdkManager) ;;
          cout "FBX file upgraded successfully: " ;;
          cout inputFile ;; cout " -> " ;; cout outputFile ;; cout endl ;;
          Return 0%Z.

End Main.

(** ** What a trace shows *)

(** The text written to [std::cout], in order. *)
Fixpoint console (t : list event) : string :=
  match t with
  | [] => ""
  | Printed s :: t' => s ++ console t'
  | Called _ _ :: t' => console t'
  end.

(** The calls of the toolkit, in order, without their answers. *)
Fixpoint calls (t : list event) : list call :=
  match t with
  | [] => []
  | Called c _ :: t' => c :: calls t'
  | Printed _ :: t' => calls t'
  end.

(** What [f] finds in a list, in order. *)
Fixpoint pick {A B : Type} (f : A -> option B) (l : list A) : list B :=
  match l with
  | [] => []
  | a :: l' =>
      match f a with
      | Some b => b :: pick f l'
      | None => pick f l'
      end
  end.

(** The path a call opens: importer initialization opens it for reading,
    exporter initialization for writing; no other call takes a path. *)
Definition file_of (c : call) : option string :=
  match c with
  | FbxImporter_Initialize _ f _ _ => Some f
  | FbxExporter_Initialize _ f _ _ => Some f
  | _ => None
  end.

Definition files (t : list event) : list string := pick file_of (calls t).

(** The path an importer, or an exporter, is initialised on. *)
Definition read_of (c : call) : option string :=
  match c with
  | FbxImporter_Initialize _ f _ _ => Some f
  | _ => None
  end.

Definition written_of (c : call) : option string :=
  match c with
  | FbxExporter_Initialize _ f _ _ => Some f
  | _ => None
  end.

(** The answer of an importer's, or an exporter's, [Initialize]. *)
Definition reader_answer (e : event) : option bool :=
  match e with
  | Printed _ => None
  | Called c r =>
      match c as c0 return result c0 -> option bool with
      | FbxImporter_Initialize _ _ _ _ => Some
      | _ => fun _ => None
      end r
  end.

Definition writer_answer (e : event) : option bool :=
  match e with
  | Printed _ => None
  | Called c r =>
      match c as c0 return result c0 -> option bool with
      | FbxExporter_Initialize _ _ _ _ => Some
      | _ => fun _ => None
      end r
  end.

(** The diagnostic string the toolkit answered. *)
Definition diagnostic_of (e : event) : option string :=
  match e with
  | Printed _ => None
  | Called c r =>
      match c as c0 return result c0 -> option string with
      | FbxImporter_GetErrorString _ => Some
      | FbxExporter_GetErrorString _ => Some
      | _ => fun _ => None
      end r
  end.

(** The object a call releases. *)
Definition released_by (c : call) : option object :=
  match c with
  | FbxObject_Destroy C p => Some (obj p)
  | FbxManager_Destroy m => Some (obj m)
  | _ => None
  end.

Definition released (t : list event) : list object :=
  pick released_by (calls t).

(** The object a call created: the pointer it answered, unless null. *)
Definition some_object {C : class} (p : ptr C) : option object :=
  if is_null p then None else Some (obj p).

Definition created_by (e : event) : option object :=
  match e with
  | Printed _ => None
  | Called c r =>
      match c as c0 return result c0 -> option object with
      | FbxManager_Create => some_object
      | FbxIOSettings_Create _ _ => some_object
      | FbxImporter_Create _ _ => some_object
      | FbxScene_Create _ _ => some_object
      | FbxExporter_Create _ _ => some_object
      | _ => fun _ => None
      end r
  end.

Definition created (t : list event) : list object := pick created_by t.

(** The scene a call is given. *)
Definition imported_into (c : call) : option (ptr FbxScene) :=
  match c with
  | FbxImporter_Import _ s => Some s
  | _ => None
  end.

Definition exported_from (c : call) : option (ptr FbxScene) :=
  match c with
  | FbxExporter_Export _ s => Some s
  | _ => None
  end.

Definition scenes_of (c : call) : list (ptr FbxScene) :=
  match c with
  | FbxImporter_Import _ s => [s]
  | FbxExporter_Export _ s => [s]
  | FbxObject_Destroy FbxScene s => [s]
  | _ => []
  end.

(** [part] occurs in [whole]. *)
Definition contains (whole part : string) : Prop :=
  exists before behind : string, whole = before ++ part ++ behind.

(** The lines of [main]. *)
Definition usage_line (argv0 : string) : string :=
  "Usage: " ++ argv0 ++ " <input.fbx> <output.fbx>" ++ endl.

Definition error_returned (diagnostic : string) : string :=
  "Error returned: " ++ diagnostic ++ endl.

Definition success_line (input output : string) : string :=
  "FBX file upgraded successfully: " ++ input ++ " -> " ++ output ++ endl.

(** What an execution initialised, with the answer it got. *)
Definition reader_initialized (t : list event) (ok : bool) : Prop :=
  In ok (pick reader_answer t).

Definition writer_initialized (t : list event) (ok : bool) : Prop :=
  In ok (pick writer_answer t).

(** Of the objects an execution created, the managers, scenes, importers
    and exporters that no call released. *)
Definition accounted (o : object) : bool :=
  negb (class_eqb (fst o) FbxIOSettings).

Definition is_released (t : list event) (o : object) : bool :=
  existsb (object_eqb o) (released t).

Definition unreleased (t : list event) : list object :=
  filter (fun o => accounted o && negb (is_released t o)) (created t).

(** ** The executions of [main]

    Whatever the toolkit answers, an execution of [main] with a program name
    and two arguments is one of six: the four that [return], and the two
    that call a member of an importer or exporter the toolkit returned as a
    null pointer. *)
Section Executions.

Variable IOSROOT : string.
Variables input output : string.

(** Lines 15 to 29 with a manager: up to the arguments of the importer's
    [Initialize]. *)
Definition opening (mgr : ptr FbxManager) (ios : ptr FbxIOSettings)
    (imp : ptr FbxImporter) (settings : ptr FbxIOSettings) : list event :=
  [ Called FbxManager_Create mgr;
    Called (FbxIOSettings_Create mgr IOSROOT) ios;
    Called (FbxManager_SetIOSettings mgr ios) tt;
    Called (FbxImporter_Create mgr "") imp;
    Called (FbxManager_GetIOSettings mgr) settings ].

(** Lines 29 to 47 when the importer's initialization answers true: up to
    the arguments of the exporter's [Initialize]. *)
Definition importing (mgr : ptr FbxManager) (imp : ptr FbxImporter)
    (settings : ptr FbxIOSettings) (scene : ptr FbxScene) (imported : bool)
    (exp : ptr FbxExporter) (settings' : ptr FbxIOSettings) : list event :=
  [ Called (FbxImporter_Initialize imp input (-1) settings) true;
    Called (FbxScene_Create mgr "") scene;
    Called (FbxImporter_Import imp scene) imported;
    Called (FbxObject_Destroy FbxImporter imp) tt;
    Called (FbxExporter_Create mgr "") exp;
    Called (FbxManager_GetIOSettings mgr) settings' ].

Inductive main_execution : list event -> outcome Z -> Prop :=
| manager_failed (mgr : ptr FbxManager) :
    is_null mgr = true ->
    main_execution
      [ Called FbxManager_Create mgr;
        Printed "Error: Unable to create FBX Manager!"; Printed endl ]
      (Exit 1%Z)
| importer_null mgr ios imp settings :
    is_null mgr = false ->
    is_null imp = true ->
    main_execution (opening mgr ios imp settings) Crash
| import_failed mgr ios imp settings (err : string) :
    is_null mgr = false ->
    is_null imp = false ->
    main_execution
      (opening mgr ios imp settings ++
       [ Called (FbxImporter_Initialize imp input (-1) settings) false;
         Printed "Error: Unable to initialize FBX importer!"; Printed endl;
         Printed "Error returned: ";
         Called (FbxImporter_GetErrorString imp) err;
         Printed err; Printed endl ])%list
      (Exit 1%Z)
| exporter_null mgr ios imp settings scene imported exp settings' :
    is_null mgr = false ->
    is_null imp = false ->
    is_null exp = true ->
    main_execution
      (opening mgr ios imp settings ++
       importing mgr imp settings scene imported exp settings')%list
      Crash
| export_failed mgr ios imp settings scene imported exp settings' (err : string) :
    is_null mgr = false ->
    is_null imp = false ->
    is_null exp = false ->
    main_execution
      (opening mgr ios imp settings ++
       importing mgr imp settings scene imported exp settings' ++
       [ Called (FbxExporter_Initialize exp output (-1) settings') false;
         Printed "Error: Unable to initialize FBX exporter!"; Printed endl;
         Printed "Error returned: ";
         Called (FbxExporter_GetErrorString exp) err;
         Printed err; Printed endl ])%list
      (Exit 1%Z)
| upgraded mgr ios imp settings scene imported exp settings' (exported : bool) :
    is_null mgr = false ->
    is_null imp = false ->
    is_null exp = false ->
    main_execution
      (opening mgr ios imp settings ++
       importing mgr imp settings scene imported exp settings' ++
       [ Called (FbxExporter_Initialize exp output (-1) settings') true;
         Called (FbxExporter_Export exp scene) exported;
         Called (FbxObject_Destroy FbxExporter exp) tt;
         Called (FbxManager_Destroy mgr) tt;
         Printed "FBX file upgraded successfully: ";
         Printed input; Printed " -> "; Printed output; Printed endl ])%list
      (Exit 0%Z).

End Executions.

(** ** A toolkit over a small file system

    One toolkit among all those the theorems range over, to run [main] on.
    Objects are numbered as they are created.  An importer can be
    initialised on the files of [readable], an exporter on any path outside
    [locked].  Importing through an initialised importer loads the scene;
    exporting a loaded scene through an initialised exporter makes the
    exporter's path readable. *)
Module Disk.

Record world : Type := World {
  memory : bool;
  next : N;
  settings : N;
  readable : list string;
  locked : list string;
  readers : list N;
  loaded : list N;
  writers : list (N * string)
}.

Definition mem (f : string) (l : list string) : bool :=
  existsb (String.eqb f) l.

Definition has (a : N) (l : list N) : bool :=
  existsb (N.eqb a) l.

Fixpoint path_of (e : N) (ws : list (N * string)) : option string :=
  match ws with
  | [] => None
  | (a, f) :: ws' => if (a =? e)%N then Some f else path_of e ws'
  end.

Definition alloc {C : class} (w : world) : ptr C * world :=
  (Ptr (next w),
   World (memory w) (next w + 1) (settings w) (readable w) (locked w)
         (readers w) (loaded w) (writers w)).

Definition set_settings (ios : N) (w : world) : world :=
  World (memory w) (next w) ios (readable w) (locked w)
        (readers w) (loaded w) (writers w).

Definition open_reader (i : N) (f : string) (w : world) : bool * world :=
  if mem f (readable w) then
    (true, World (memory w) (next w) (settings w) (readable w) (locked w)
                 (i :: readers w) (loaded w) (writers w))
  else (false, w).

Definition import (i s : N) (w : world) : bool * world :=
  if has i (readers w) then
    (true, World (memory w) (next w) (settings w) (readable w) (locked w)
                 (readers w) (s :: loaded w) (writers w))
  else (false, w).

Definition open_writer (e : N) (f : string) (w : world) : bool * world :=
  if mem f (locked w) then (false, w)
  else
    (true, World (memory w) (next w) (settings w) (readable w) (locked w)
                 (readers w) (loaded w) ((e, f) :: writers w)).

Definition export (e s : N) (w : world) : bool * world :=
  match path_of e (writers w) with
  | Some f =>
      if has s (loaded w) then
        (true, World (memory w) (next w) (settings w) (f :: readable w)
                     (locked w) (readers w) (loaded w) (writers w))
      else (false, w)
  | None => (false, w)
  end.

Definition destroy (o : object) (w : world) : world :=
  World (memory w) (next w) (settings w) (readable w) (locked w)
        (match fst o with
         | FbxImporter => filter (fun a => negb (a =? snd o)%N) (readers w)
         | _ => readers w
         end)
        (match fst o with
         | FbxScene => filter (fun a => negb (a =? snd o)%N) (loaded w)
         | _ => loaded w
         end)
        (match fst o with
         | FbxExporter => filter (fun p => negb (fst p =? snd o)%N) (writers w)
         | _ => writers w
         end).

Definition shutdown (w : world) : world :=
  World (memory w) (next w) 0 (readable w) (locked w) [] [] [].

Definition tk : toolkit world := fun c =>
  match c as c0 return world -> result c0 * world with
  | FbxManager_Create => fun w => if memory w then alloc w else (Ptr 0, w)
  | FbxIOSettings_Create _ _ => alloc
  | FbxManager_SetIOSettings _ ios => fun w => (tt, set_settings (addr ios) w)
  | FbxManager_GetIOSettings _ => fun w => (Ptr (settings w), w)
  | FbxImporter_Create _ _ => alloc
  | FbxImporter_Initialize i f _ _ => open_reader (addr i) f
  | FbxImporter_GetErrorString _ => fun w => ("File not found", w)
  | FbxScene_Create _ _ => alloc
  | FbxImporter_Import i s => import (addr i) (addr s)
  | FbxObject_Destroy _ p => fun w => (tt, destroy (obj p) w)
  | FbxExporter_Create _ _ => alloc
  | FbxExporter_Initialize e f _ _ => open_writer (addr e) f
  | FbxExporter_GetErrorString _ => fun w => ("Permission denied", w)
  | FbxExporter_Export e s => export (addr e) (addr s)
  | FbxManager_Destroy _ => fun w => (tt, shutdown w)
  end.

(** A world with the files [fs] and the locked paths [ro], and memory for
    objects. *)
Definition boot (fs ro : list string) : world :=
  World true 1 0 fs ro [] [] [].

(** The same without memory for a manager. *)
Definition exhausted (fs ro : list string) : world :=
  World false 1 0 fs ro [] [] [].

End Disk.


(** ** A toolkit that opens everything and transfers nothing

    Every object is at address 1, both initializations answer true, and
    [Import] and [Export] answer false. *)
Module Idle.

Definition tk : toolkit unit := fun c =>
  match c as c0 return unit -> result c0 * unit with
  | FbxManager_Create => fun w => (Ptr 1, w)
  | FbxIOSettings_Create _ _ => fun w => (Ptr 1, w)
  | FbxManager_SetIOSettings _ _ => fun w => (tt, w)
  | FbxManager_GetIOSettings _ => fun w => (Ptr 1, w)
  | FbxImporter_Create _ _ => fun w => (Ptr 1, w)
  | FbxImporter_Initialize _ _ _ _ => fun w => (true, w)
  | FbxImporter_GetErrorString _ => fun w => ("", w)
  | FbxScene_Create _ _ => fun w => (Ptr 1, w)
  | FbxImporter_Import _ _ => fun w => (false, w)
  | FbxObject_Destroy _ _ => fun w => (tt, w)
  | FbxExporter_Create _ _ => fun w => (Ptr 1, w)
  | FbxExporter_Initialize _ _ _ _ => fun w => (true, w)
  | FbxExporter_GetErrorString _ => fun w => ("", w)
  | FbxExporter_Export _ _ => fun w => (false, w)
  | FbxManager_Destroy _ => fun w => (tt, w)
  end.

End Idle.

(** ** The file-system toolkit with no room left

    [Disk.tk], but for [Export]: it answers false and writes nothing. *)
Module Full.

Definition tk : toolkit Disk.world := fun c =>
  match c as c0
        return (Disk.world -> result c0 * Disk.world) ->
               Disk.world -> result c0 * Disk.world with
  | FbxExporter_Export _ _ => fun _ w => (false, w)
  | _ => fun answer => answer
  end (Disk.tk c).

End Full.

(** ** Toolkits that give no importer, or no exporter

    [Idle.tk], but for [FbxImporter::Create], or for
    [FbxExporter::Create]: it answers the null pointer. *)
Module Hollow.

Definition tk : toolkit unit := fun c =>
  match c as c0
        return (unit -> result c0 * unit) -> unit -> result c0 * unit with
  | FbxImporter_Create _ _ => fun _ w => (Ptr 0, w)
  | _ => fun answer => answer
  end (Idle.tk c).


End Hollow.

Definition IOSRoot : string := "IOSRoot".

(** ** Pointers, answers and lifetimes in a trace *)

(** The answer of [Import], and of [Export]. *)
Definition import_answer (e : event) : option bool :=
  match e with
  | Printed _ => None
  | Called c r =>
      match c as c0 return result c0 -> option bool with
      | FbxImporter_Import _ _ => Some
      | _ => fun _ => None
      end r
  end.

Definition export_answer (e : event) : option bool :=
  match e with
  | Printed _ => None
  | Called c r =>
      match c as c0 return result c0 -> option bool with
      | FbxExporter_Export _ _ => Some
      | _ => fun _ => None
      end r
  end.

(** The class of the object a creation failed to give: it answered null. *)
Definition null_of {C : class} (p : ptr C) : option class :=
  if is_null p then Some C else None.

Definition null_answer (e : event) : option class :=
  match e with
  | Printed _ => None
  | Called c r =>
      match c as c0 return result c0 -> option class with
      | FbxManager_Create => null_of
      | FbxIOSettings_Create _ _ => null_of
      | FbxImporter_Create _ _ => null_of
      | FbxScene_Create _ _ => null_of
      | FbxExporter_Create _ _ => null_of
      | _ => fun _ => None
      end r
  end.

(** The pointer a call answered, null or not. *)
Definition answered_by (e : event) : option object :=
  match e with
  | Printed _ => None
  | Called c r =>
      match c as c0 return result c0 -> option object with
      | FbxManager_Create => fun p => Some (obj p)
      | FbxIOSettings_Create _ _ => fun p => Some (obj p)
      | FbxManager_GetIOSettings _ => fun p => Some (obj p)
      | FbxImporter_Create _ _ => fun p => Some (obj p)
      | FbxScene_Create _ _ => fun p => Some (obj p)
      | FbxExporter_Create _ _ => fun p => Some (obj p)
      | _ => fun _ => None
      end r
  end.

(** The pointers a call is given: the object it is a member call of, and
    its pointer arguments. *)
Definition uses (c : call) : list object :=
  match c with
  | FbxManager_Create => []
  | FbxIOSettings_Create m _ => [obj m]
  | FbxManager_SetIOSettings m i => [obj m; obj i]
  | FbxManager_GetIOSettings m => [obj m]
  | FbxImporter_Create m _ => [obj m]
  | FbxImporter_Initialize i _ _ s => [obj i; obj s]
  | FbxImporter_GetErrorString i => [obj i]
  | FbxScene_Create m _ => [obj m]
  | FbxImporter_Import i s => [obj i; obj s]
  | FbxObject_Destroy _ p => [obj p]
  | FbxExporter_Create m _ => [obj m]
  | FbxExporter_Initialize e _ _ s => [obj e; obj s]
  | FbxExporter_GetErrorString e => [obj e]
  | FbxExporter_Export e s => [obj e; obj s]
  | FbxManager_Destroy m => [obj m]
  end.

(** Every pointer given to a call was answered by an earlier call, or is
    one of [seen]. *)
Fixpoint scoped (seen : list object) (t : list event) : Prop :=
  match t with
  | [] => True
  | Printed _ :: t' => scoped seen t'
  | Called c r :: t' =>
      Forall (fun o => In o seen) (uses c) /\
      scoped (match answered_by (Called c r) with
              | Some o => o :: seen
              | None => seen
              end) t'
  end.

(** No call is given an object that an earlier call released. *)
Fixpoint released_for_good (cs : list call) : bool :=
  match cs with
  | [] => true
  | c :: cs' =>
      match released_by c with
      | Some o =>
          forallb (fun c' => negb (existsb (object_eqb o) (uses c'))) cs'
      | None => true
      end && released_for_good cs'
  end.

(** Whether an exporter is created while an importer that was created has
    not been released; [reader] says whether one is held at the start. *)
Fixpoint reader_with_writer (reader : bool) (cs : list call) : bool :=
  match cs with
  | [] => false
  | FbxImporter_Create _ _ :: cs' => reader_with_writer true cs'
  | FbxObject_Destroy FbxImporter _ :: cs' => reader_with_writer false cs'
  | FbxExporter_Create _ _ :: cs' => reader || reader_with_writer reader cs'
  | _ :: cs' => reader_with_writer reader cs'
  end.

(** ** Importing again what was exported *)

(** The creation of an object of class [C] answered null. *)
Definition created_null (t : list event) (C : class) : Prop :=
  In C (pick null_answer t).

Section Again.

Variable IOSROOT : string.
Context {W : Type}.
Variable tk : toolkit W.



End Again.

(** ** Stepping through [main] *)

Ltac answer tk :=
  match goal with
  | |- context [tk ?c ?w] =>
      is_var w;
      let r := fresh "r" in
      let w' := fresh "w" in
      let E := fresh "E" in
      destruct (tk c w) as [r w'] eqn:E; cbn [fst snd] in *;
      cbn [result] in r;
      try (match type of r with unit => destruct r end)
  end.

Ltac branch :=
  match goal with
  | |- context [if is_null ?p then _ else _] =>
      let N := fresh "N" in destruct (is_null p) eqn:N
  | |- context [if negb ?b then _ else _] =>
      is_var b; destruct b; cbn [negb]
  end.

(** An event that is in a trace written out. *)
Ltac found := cbn; repeat (first [left; reflexivity | right]).

(** [main] against any toolkit, to the end of every branch. *)
Ltac execute tk :=
  repeat first [ answer tk | branch | progress unfold deref | progress cbn ].

(** The six executions of [main], from the lemma that classifies them. *)
Ltac paths H :=
  destruct H as
    [ mgr Hm
    | mgr ios imp settings Hm Hi
    | mgr ios imp settings err Hm Hi
    | mgr ios imp settings scene imported exp settings' Hm Hi He
    | mgr ios imp settings scene imported exp settings' err Hm Hi He
    | mgr ios imp settings scene imported exp settings' exported Hm Hi He ].

(** * Theorems *)

Lemma append_assoc (a b c : string) : (a ++ b) ++ c = a ++ b ++ c.
Proof. induction a as [| ch a IH]; cbn; [reflexivity | now rewrite IH]. Qed.


Example disk_upgrade :
  let x := run Disk.tk (main IOSRoot ["upgrade_fbx"; "a.fbx"; "b.fbx"])
               (Disk.boot ["a.fbx"] []) in
  status x = Exit 0%Z /\
  console (trace x) = success_line "a.fbx" "b.fbx" /\
  files (trace x) = ["a.fbx"; "b.fbx"] /\
  Disk.readable (final x) = ["b.fbx"; "a.fbx"].
Proof. vm_compute. repeat split. Qed.

Example disk_missing_source :
  let x := run Disk.tk (main IOSRoot ["upgrade_fbx"; "a.fbx"; "b.fbx"])
               (Disk.boot [] []) in
  status x = Exit 1%Z /\
  console (trace x) =
    "Error: Unable to initialize FBX importer!" ++ endl ++
    error_returned "File not found" /\
  files (trace x) = ["a.fbx"] /\
  released (trace x) = [] /\
  created (trace x) = [(FbxManager, 1%N); (FbxIOSettings, 2%N); (FbxImporter, 3%N)].
Proof. vm_compute. repeat split. Qed.

(** [main] returns 0 and reports success although [Import] and [Export]
    both answered false. *)
Example idle_upgrade :
  let x := run Idle.tk (main IOSRoot ["upgrade_fbx"; "a.fbx"; "b.fbx"]) tt in
  In (Called (FbxImporter_Import (Ptr 1) (Ptr 1)) false) (trace x) /\
  In (Called (FbxExporter_Export (Ptr 1) (Ptr 1)) false) (trace x) /\
  status x = Exit 0%Z /\
  console (trace x) = success_line "a.fbx" "b.fbx".
Proof. vm_compute. repeat split; found. Qed.

(** ** The executions of [main], classified *)

Lemma main_executions {W : Type} (IOSROOT input output : string)
    (tk : toolkit W) (w : W) (argv0 : string) :
  let x := run tk (main IOSROOT [argv0; input; output]) w in
  main_execution IOSROOT input output (trace x) (status x).
Proof.
  cbn.
  answer tk. branch.
  { cbn. now apply manager_failed. }
  cbn. do 4 answer tk. unfold deref. branch.
  { cbn. now apply importer_null. }
  cbn. answer tk. branch.
  2:{ cbn. answer tk. now apply import_failed. }
  cbn. do 5 answer tk. unfold deref. branch.
  { cbn. now apply exporter_null. }
  cbn. answer tk. branch.
  2:{ cbn. answer tk. now apply export_failed. }
  cbn. do 3 answer tk.
  now apply upgraded.
Qed.


(** With a program name and any number of arguments but two, [main] writes
    the usage line and returns 1 without a call of the toolkit. *)
Lemma main_usage {W : Type} (IOSROOT : string) (tk : toolkit W) (w : W)
    (argv0 : string) (args : list string) :
  List.length args <> 2%nat ->
  run tk (main IOSROOT (argv0 :: args)) w =
  Execution
    [ Printed "Usage: "; Printed argv0;
      Printed " <input.fbx> <output.fbx>"; Printed endl ]
    (Exit 1%Z) w.
Proof.
  intros Hn. unfold main.
  destruct (Z.eqb_spec (Z.of_nat (List.length (argv0 :: args))) 3) as [E | E].
  - exfalso. apply Hn. cbn [List.length] in E. lia.
  - reflexivity.
Qed.

(** ** Exit codes and the paths that return early *)

Section ExitCodes.

Variable IOSROOT : string.
Context {W : Type}.
Variable tk : toolkit W.

(** The exit code of [main], path by path. *)
Lemma exit_codes_by_path (w : W) (argv0 : string) (args : list string) :
  let x := run tk (main IOSROOT (argv0 :: args)) w in
  (status x = Exit 0%Z <->
     reader_initialized (trace x) true /\
     writer_initialized (trace x) true) /\
  (status x = Exit 0%Z ->
     exists imported exported : bool,
       pick import_answer (trace x) = [imported] /\
       pick export_answer (trace x) = [exported]) /\
  (List.length args <> 2%nat -> status x = Exit 1%Z) /\
  (reader_initialized (trace x) false -> status x = Exit 1%Z) /\
  (writer_initialized (trace x) false -> status x = Exit 1%Z).
Proof.
  destruct (Nat.eq_dec (List.length args) 2) as [E | E].
  - destruct args as [| input [| output [| ? ?]]]; try discriminate E.
    intros x. subst x.
    destruct (main_executions IOSROOT input output tk w argv0);
      unfold reader_initialized, writer_initialized;
      cbn; intuition (try discriminate; try congruence; eauto).
  - intros x. subst x. rewrite (main_usage IOSROOT tk w argv0 args E).
    unfold reader_initialized, writer_initialized.
    cbn. intuition (try discriminate; try congruence).
Qed.

(** With two arguments [main] returns 0 when nothing fails: no creation of
    a manager, importer or exporter answers null and no initialization
    answers false. *)
Lemma exit_zero_when_nothing_fails (w : W) (argv0 input output : string) :
  let x := run tk (main IOSROOT [argv0; input; output]) w in
  ~ created_null (trace x) FbxManager ->
  ~ created_null (trace x) FbxImporter ->
  ~ created_null (trace x) FbxExporter ->
  ~ reader_initialized (trace x) false ->
  ~ writer_initialized (trace x) false ->
  status x = Exit 0%Z.
Proof.
  intros x. subst x.
  paths (main_executions IOSROOT input output tk w argv0);
    unfold created_null, reader_initialized, writer_initialized;
    cbn; unfold null_of;
    intros Hmgr Himp Hexp Hread Hwrite; try reflexivity; exfalso;
    rewrite ?Hm, ?Hi, ?He in *;
    repeat match goal with
           | H : context [is_null ?p] |- _ => destruct (is_null p)
           end;
    cbn in *; tauto.
Qed.

(** C1, amended.  [main] returns 0 exactly when the importer's and the
    exporter's initialization have both answered true.  [Import] and
    [Export] have then been called once each, and what they answered plays
    no part.  [main] returns 1 when the number of arguments is not two,
    when the importer's initialization fails, and when the exporter's
    initialization fails.  And it does return 0: with two arguments it does
    so whenever no creation of a manager, importer or exporter answers null
    and no initialization answers false. *)
Theorem C1_exit_codes (w : W) (argv0 : string) (args : list string) :
  let x := run tk (main IOSROOT (argv0 :: args)) w in
  (status x = Exit 0%Z <->
     reader_initialized (trace x) true /\
     writer_initialized (trace x) true) /\
  (status x = Exit 0%Z ->
     exists imported exported : bool,
       pick import_answer (trace x) = [imported] /\
       pick export_answer (trace x) = [exported]) /\
  (List.length args <> 2%nat -> status x = Exit 1%Z) /\
  (reader_initialized (trace x) false -> status x = Exit 1%Z) /\
  (writer_initialized (trace x) false -> status x = Exit 1%Z) /\
  (List.length args = 2%nat ->
   ~ created_null (trace x) FbxManager ->
   ~ created_null (trace x) FbxImporter ->
   ~ created_null (trace x) FbxExporter ->
   ~ reader_initialized (trace x) false ->
   ~ writer_initialized (trace x) false ->
   status x = Exit 0%Z).
Proof.
  intros x. subst x.
  pose proof (exit_codes_by_path w argv0 args) as H. cbv zeta in H.
  destruct H as (H1 & H2 & H3 & H4 & H5).
  repeat (split; [assumption |]).
  intros E. destruct args as [| input [| output [| ? ?]]]; try discriminate E.
  apply exit_zero_when_nothing_fails.
Qed.

(** C2.  With zero, one or more than two arguments after the program name,
    [main] writes the usage line and nothing else, returns 1, and makes no
    call of the toolkit: no object is created, no file is opened, and the
    world is as it was. *)
Theorem C2_wrong_argument_count (w : W) (argv0 : string) (args : list string) :
  List.length args <> 2%nat ->
  let x := run tk (main IOSROOT (argv0 :: args)) w in
  console (trace x) = usage_line argv0 /\
  status x = Exit 1%Z /\
  status x <> Exit 0%Z /\
  calls (trace x) = [] /\
  files (trace x) = [] /\
  created (trace x) = [] /\
  final x = w.
Proof.
  intros Hn x. subst x. rewrite (main_usage IOSROOT tk w argv0 args Hn).
  cbn. repeat split. discriminate.
Qed.

(** C10.  When [FbxManager::Create] answers a null pointer, [main] writes
    "Error: Unable to create FBX Manager!" and returns 1.  The creation of
    the manager is its only call: no other object is created and no path is
    given to the toolkit.  The path is none of the three others that return
    1: the argument count is right, and neither an importer nor an exporter
    has been initialised. *)
Theorem C10_manager_creation_failure (w : W) (argv0 input output : string) :
  is_null (fst (tk FbxManager_Create w)) = true ->
  let x := run tk (main IOSROOT [argv0; input; output]) w in
  console (trace x) = "Error: Unable to create FBX Manager!" ++ endl /\
  status x = Exit 1%Z /\
  calls (trace x) = [FbxManager_Create] /\
  files (trace x) = [] /\
  created (trace x) = [] /\
  pick reader_answer (trace x) = [] /\
  pick writer_answer (trace x) = [].
Proof.
  intros Hnull x. subst x. cbn.
  destruct (tk FbxManager_Create w) as [mgr w'] eqn:E. cbn [fst snd] in *.
  rewrite Hnull. cbn. unfold some_object. rewrite Hnull. repeat split.
Qed.

End ExitCodes.

(** C1 as stated fails when [Export] fails: both initializations succeed,
    [Export] answers false and nothing is written at the destination, so
    the scene is not exported, and [main] returns 0. *)
Lemma C1_export_fails_counterexample :
  let x := run Full.tk (main IOSRoot ["upgrade_fbx"; "a.fbx"; "b.fbx"])
               (Disk.boot ["a.fbx"] []) in
  reader_initialized (trace x) true /\
  writer_initialized (trace x) true /\
  pick export_answer (trace x) = [false] /\
  Disk.readable (final x) = ["a.fbx"] /\
  status x = Exit 0%Z.
Proof. vm_compute. auto 10. Qed.

(** The four exits, each on a run of the file-system toolkit: a readable
    source and a free destination; one argument; no source; a locked
    destination. *)
Lemma C1_exit_codes_witness :
  status (run Disk.tk (main IOSRoot ["upgrade_fbx"; "a.fbx"; "b.fbx"])
              (Disk.boot ["a.fbx"] [])) = Exit 0%Z /\
  status (run Disk.tk (main IOSRoot ["upgrade_fbx"; "a.fbx"])
              (Disk.boot ["a.fbx"] [])) = Exit 1%Z /\
  status (run Disk.tk (main IOSRoot ["upgrade_fbx"; "a.fbx"; "b.fbx"])
              (Disk.boot [] [])) = Exit 1%Z /\
  status (run Disk.tk (main IOSRoot ["upgrade_fbx"; "a.fbx"; "b.fbx"])
              (Disk.boot ["a.fbx"] ["b.fbx"])) = Exit 1%Z.
Proof.
  split; [| split; [| split]].
  - destruct (C1_exit_codes IOSRoot Disk.tk (Disk.boot ["a.fbx"] [])
                "upgrade_fbx" ["a.fbx"; "b.fbx"]) as ([_ Hzero] & _).
    apply Hzero. split; vm_compute; auto.
  - destruct (C1_exit_codes IOSRoot Disk.tk (Disk.boot ["a.fbx"] [])
                "upgrade_fbx" ["a.fbx"]) as (_ & _ & Hcount & _).
    apply Hcount. discriminate.
  - destruct (C1_exit_codes IOSRoot Disk.tk (Disk.boot [] [])
                "upgrade_fbx" ["a.fbx"; "b.fbx"]) as (_ & _ & _ & Hreader & _).
    apply Hreader. vm_compute. auto.
  - destruct (C1_exit_codes IOSRoot Disk.tk (Disk.boot ["a.fbx"] ["b.fbx"])
                "upgrade_fbx" ["a.fbx"; "b.fbx"]) as (_ & _ & _ & _ & Hwriter & _).
    apply Hwriter. vm_compute. auto.
Defined.

Lemma C2_wrong_argument_count_witness :
  let x := run Disk.tk (main IOSRoot ["upgrade_fbx"; "a.fbx"])
               (Disk.boot ["a.fbx"] []) in
  console (trace x) = usage_line "upgrade_fbx" /\
  status x = Exit 1%Z /\
  status x <> Exit 0%Z /\
  calls (trace x) = [] /\
  files (trace x) = [] /\
  created (trace x) = [] /\
  final x = Disk.boot ["a.fbx"] [].
Proof.
  apply (C2_wrong_argument_count IOSRoot Disk.tk (Disk.boot ["a.fbx"] [])
           "upgrade_fbx" ["a.fbx"]).
  simpl. lia.
Defined.

Lemma C10_manager_creation_failure_witness :
  let x := run Disk.tk (main IOSRoot ["upgrade_fbx"; "a.fbx"; "b.fbx"])
               (Disk.exhausted ["a.fbx"] []) in
  console (trace x) = "Error: Unable to create FBX Manager!" ++ endl /\
  status x = Exit 1%Z /\
  calls (trace x) = [FbxManager_Create] /\
  files (trace x) = [] /\
  created (trace x) = [] /\
  pick reader_answer (trace x) = [] /\
  pick writer_answer (trace x) = [].
Proof.
  apply (C10_manager_creation_failure IOSRoot Disk.tk
           (Disk.exhausted ["a.fbx"] []) "upgrade_fbx" "a.fbx" "b.fbx").
  reflexivity.
Defined.

Section ErrorPaths.

Variable IOSROOT : string.
Context {W : Type}.
Variable tk : toolkit W.

(** The executions in which the importer's initialization fails do not
    depend on the second argument. *)
Lemma import_failure_ignores_output (w : W) (argv0 input output output' : string) :
  reader_initialized (trace (run tk (main IOSROOT [argv0; input; output]) w)) false ->
  run tk (main IOSROOT [argv0; input; output']) w =
  run tk (main IOSROOT [argv0; input; output]) w.
Proof.
  unfold reader_initialized. cbn.
  answer tk. branch; [reflexivity |].
  cbn. do 4 answer tk. unfold deref. branch; [reflexivity |].
  cbn. answer tk. branch; [| reflexivity].
  cbn. do 5 answer tk. unfold deref. branch.
  - cbn. intuition discriminate.
  - cbn. answer tk. branch; cbn.
    + do 3 answer tk. cbn. intuition discriminate.
    + answer tk. cbn. intuition discriminate.
Qed.

(** C3, amended.  When the importer's initialization fails, [main] writes
    the line "Error returned: " with the diagnostic string the importer
    answered, returns 1, creates no exporter, initialises none and exports
    nothing.  The one path it gives to the toolkit is the first argument,
    to the importer's initialization; the execution is the same whatever
    the second argument, which therefore reaches no call of the toolkit
    unless it is the very string of the first. *)
Theorem C3_import_failure (w : W) (argv0 input output : string) :
  let x := run tk (main IOSROOT [argv0; input; output]) w in
  reader_initialized (trace x) false ->
  (forall output' : string,
     run tk (main IOSROOT [argv0; input; output']) w = x) /\
  status x = Exit 1%Z /\
  (exists diagnostic : string,
     pick diagnostic_of (trace x) = [diagnostic] /\
     console (trace x) =
       "Error: Unable to initialize FBX importer!" ++ endl ++
       error_returned diagnostic /\
     contains (console (trace x)) diagnostic) /\
  pick exported_from (calls (trace x)) = [] /\
  pick written_of (calls (trace x)) = [] /\
  Forall (fun o => fst o <> FbxExporter) (created (trace x)) /\
  files (trace x) = [input] /\
  (output <> input -> ~ In output (files (trace x))).
Proof.
  intros x Hfail. split.
  { intros output'. now apply import_failure_ignores_output. }
  revert Hfail. subst x.
  destruct (main_executions IOSROOT input output tk w argv0) as
    [ mgr Hm
    | mgr ios imp settings Hm Hi
    | mgr ios imp settings err Hm Hi
    | mgr ios imp settings scene imported exp settings' Hm Hi He
    | mgr ios imp settings scene imported exp settings' err Hm Hi He
    | mgr ios imp settings scene imported exp settings' exported Hm Hi He ];
    unfold reader_initialized; cbn; intros Hfail;
    try (exfalso; intuition discriminate).
  split; [reflexivity |].
  split.
  { exists err. repeat split.
    exists ("Error: Unable to initialize FBX importer!" ++ endl ++ "Error returned: "), endl.
    reflexivity. }
  unfold files, created, some_object. cbn. rewrite Hm, Hi. cbn.
  repeat split; auto.
  - destruct (is_null ios); repeat (apply Forall_cons || apply Forall_nil);
      cbn; discriminate.
  - intros Hneq [E | []]. now apply Hneq.
Qed.

(** C4.  When the exporter's initialization fails, [main] writes the line
    "Error returned: " with the diagnostic string the exporter answered and
    returns 1.  By then the importer has been released, and no call has
    released, or will release, the scene that was imported into or the
    manager. *)
Theorem C4_export_failure (w : W) (argv0 input output : string) :
  let x := run tk (main IOSROOT [argv0; input; output]) w in
  writer_initialized (trace x) false ->
  status x = Exit 1%Z /\
  (exists diagnostic : string,
     pick diagnostic_of (trace x) = [diagnostic] /\
     console (trace x) =
       "Error: Unable to initialize FBX exporter!" ++ endl ++
       error_returned diagnostic /\
     contains (console (trace x)) diagnostic) /\
  (exists (mgr : ptr FbxManager) (imp : ptr FbxImporter) (scene : ptr FbxScene),
     In (Called FbxManager_Create mgr) (trace x) /\
     In (Called (FbxImporter_Create mgr "") imp) (trace x) /\
     In (Called (FbxScene_Create mgr "") scene) (trace x) /\
     pick imported_into (calls (trace x)) = [scene] /\
     In (obj imp) (released (trace x)) /\
     ~ In (obj scene) (released (trace x)) /\
     ~ In (obj mgr) (released (trace x))).
Proof.
  intros x. subst x.
  destruct (main_executions IOSROOT input output tk w argv0) as
    [ mgr Hm
    | mgr ios imp settings Hm Hi
    | mgr ios imp settings err Hm Hi
    | mgr ios imp settings scene imported exp settings' Hm Hi He
    | mgr ios imp settings scene imported exp settings' err Hm Hi He
    | mgr ios imp settings scene imported exp settings' exported Hm Hi He ];
    unfold writer_initialized; cbn; intros Hfail;
    try (exfalso; intuition discriminate).
  split; [reflexivity |].
  split.
  { exists err. repeat split.
    exists ("Error: Unable to initialize FBX exporter!" ++ endl ++ "Error returned: "), endl.
    reflexivity. }
  exists mgr, imp, scene. unfold released. cbn.
  repeat split; auto 10.
  - intros [E | []]. discriminate E.
  - intros [E | []]. discriminate E.
Qed.

End ErrorPaths.

(** C3 as stated fails when both arguments are the same path: the
    importer's initialization fails, and the destination path has been given
    to a call of the toolkit, the importer's initialization itself. *)
Lemma C3_same_path_counterexample :
  let output := "a.fbx" in
  let x := run Disk.tk (main IOSRoot ["upgrade_fbx"; "a.fbx"; output])
               (Disk.boot [] []) in
  reader_initialized (trace x) false /\
  In (FbxImporter_Initialize (Ptr 3) output (-1) (Ptr 2)) (calls (trace x)) /\
  In output (files (trace x)).
Proof. vm_compute. auto 10. Qed.

Lemma C3_import_failure_witness :
  let x := run Disk.tk (main IOSRoot ["upgrade_fbx"; "a.fbx"; "b.fbx"])
               (Disk.boot [] []) in
  reader_initialized (trace x) false /\
  status x = Exit 1%Z /\
  console (trace x) =
    "Error: Unable to initialize FBX importer!" ++ endl ++
    error_returned "File not found" /\
  files (trace x) = ["a.fbx"] /\
  ~ In "b.fbx" (files (trace x)).
Proof.
  assert (H : reader_initialized
                (trace (run Disk.tk (main IOSRoot ["upgrade_fbx"; "a.fbx"; "b.fbx"])
                            (Disk.boot [] []))) false)
    by (vm_compute; auto).
  destruct (C3_import_failure IOSRoot Disk.tk (Disk.boot [] [])
              "upgrade_fbx" "a.fbx" "b.fbx" H)
    as (_ & Hs & _ & _ & _ & _ & Hf & Hn).
  repeat split; auto. apply Hn. discriminate.
Defined.

Lemma C4_export_failure_witness :
  let x := run Disk.tk (main IOSRoot ["upgrade_fbx"; "a.fbx"; "b.fbx"])
               (Disk.boot ["a.fbx"] ["b.fbx"]) in
  writer_initialized (trace x) false /\
  status x = Exit 1%Z /\
  released (trace x) = [(FbxImporter, 3%N)].
Proof.
  assert (H : writer_initialized
                (trace (run Disk.tk (main IOSRoot ["upgrade_fbx"; "a.fbx"; "b.fbx"])
                            (Disk.boot ["a.fbx"] ["b.fbx"]))) false)
    by (vm_compute; auto).
  destruct (C4_export_failure IOSRoot Disk.tk (Disk.boot ["a.fbx"] ["b.fbx"])
              "upgrade_fbx" "a.fbx" "b.fbx" H)
    as (Hs & _ & _).
  repeat split; auto.
Defined.

Section Success.

Variable IOSROOT : string.
Context {W : Type}.
Variable tk : toolkit W.

(** C5.  When [main] returns 0 there is one scene: the toolkit created it
    empty, the importer imported into it, the exporter exported it; and of
    all the calls [main] made, only that [Import] and that [Export] were
    given a scene at all, in this order. *)
Theorem C5_same_scene (w : W) (argv0 input output : string) :
  let x := run tk (main IOSROOT [argv0; input; output]) w in
  status x = Exit 0%Z ->
  exists (mgr : ptr FbxManager) (scene : ptr FbxScene),
    In (Called (FbxScene_Create mgr "") scene) (trace x) /\
    pick imported_into (calls (trace x)) = [scene] /\
    pick exported_from (calls (trace x)) = [scene] /\
    flat_map scenes_of (calls (trace x)) = [scene; scene] /\
    exists (before between behind : list event)
           (imp : ptr FbxImporter) (exp : ptr FbxExporter) (imported exported : bool),
      trace x =
        (before ++ Called (FbxImporter_Import imp scene) imported
           :: between ++ Called (FbxExporter_Export exp scene) exported
           :: behind)%list /\
      flat_map scenes_of (calls between) = [].
Proof.
  intros x. subst x.
  destruct (main_executions IOSROOT input output tk w argv0) as
    [ mgr Hm
    | mgr ios imp settings Hm Hi
    | mgr ios imp settings err Hm Hi
    | mgr ios imp settings scene imported exp settings' Hm Hi He
    | mgr ios imp settings scene imported exp settings' err Hm Hi He
    | mgr ios imp settings scene imported exp settings' exported Hm Hi He ];
    cbn; intros Hexit; try discriminate Hexit.
  exists mgr, scene. repeat split; auto 10.
  exists (opening IOSROOT mgr ios imp settings ++
          [ Called (FbxImporter_Initialize imp input (-1) settings) true;
            Called (FbxScene_Create mgr "") scene ])%list,
         [ Called (FbxObject_Destroy FbxImporter imp) tt;
           Called (FbxExporter_Create mgr "") exp;
           Called (FbxManager_GetIOSettings mgr) settings';
           Called (FbxExporter_Initialize exp output (-1) settings') true ],
         [ Called (FbxObject_Destroy FbxExporter exp) tt;
           Called (FbxManager_Destroy mgr) tt;
           Printed "FBX file upgraded successfully: ";
           Printed input; Printed " -> "; Printed output; Printed endl ],
         imp, exp, imported, exported.
  split; reflexivity.
Qed.

(** With a manager and an importer, [argv[1]] is given to the importer's
    initialization. *)
Lemma input_reaches_the_importer (w : W) (argv0 input output : string) :
  let x := run tk (main IOSROOT [argv0; input; output]) w in
  is_null (fst (tk FbxManager_Create w)) = false ->
  ~ created_null (trace x) FbxImporter ->
  pick read_of (calls (trace x)) = [input].
Proof.
  unfold created_null. cbn. intros Hm.
  destruct (tk FbxManager_Create w) as [mgr w1]. cbn [fst snd] in *.
  rewrite Hm. execute tk; unfold null_of; cbn; rewrite ?Hm;
    intros Hnone; try reflexivity;
    exfalso; apply Hnone;
    match goal with H : is_null _ = true |- _ => rewrite H end;
    destruct (is_null r); cbn; auto.
Qed.

(** C7.  The path given to an importer's initialization is always
    [argv[1]] and the path given to an exporter's is always [argv[2]], as
    they came.  They are given: with two arguments, a manager and an
    importer, [argv[1]] goes to the importer's initialization; once that
    has answered true and there is an exporter, [argv[2]] goes to the
    exporter's.  When [main] returns 0 each was given once, and the output
    is the success line, in which both occur. *)
Theorem C7_paths_verbatim (w : W) (argv : list string) :
  let x := run tk (main IOSROOT argv) w in
  Forall (eq (nth 1 argv "")) (pick read_of (calls (trace x))) /\
  Forall (eq (nth 2 argv "")) (pick written_of (calls (trace x))) /\
  (status x = Exit 0%Z ->
     pick read_of (calls (trace x)) = [nth 1 argv ""] /\
     pick written_of (calls (trace x)) = [nth 2 argv ""] /\
     console (trace x) = success_line (nth 1 argv "") (nth 2 argv "") /\
     contains (console (trace x)) (nth 1 argv "") /\
     contains (console (trace x)) (nth 2 argv "")) /\
  (List.length argv = 3%nat ->
   is_null (fst (tk FbxManager_Create w)) = false ->
   ~ created_null (trace x) FbxImporter ->
     pick read_of (calls (trace x)) = [nth 1 argv ""]) /\
  (reader_initialized (trace x) true ->
   ~ created_null (trace x) FbxExporter ->
     pick written_of (calls (trace x)) = [nth 2 argv ""]).
Proof.
  destruct argv as [| argv0 args].
  { cbn. repeat split; try constructor; try discriminate.
    unfold reader_initialized. cbn. intros []. }
  destruct (Nat.eq_dec (List.length args) 2) as [E | E].
  - destruct args as [| input [| output [| ? ?]]]; try discriminate E.
    intros x. subst x. cbn [nth].
    split; [| split; [| split; [| split]]].
    + destruct (main_executions IOSROOT input output tk w argv0);
        cbn; repeat constructor.
    + destruct (main_executions IOSROOT input output tk w argv0);
        cbn; repeat constructor.
    + destruct (main_executions IOSROOT input output tk w argv0);
        cbn; intros Hexit; try discriminate Hexit.
      repeat split.
      * exists "FBX file upgraded successfully: ", (" -> " ++ output ++ endl).
        reflexivity.
      * exists ("FBX file upgraded successfully: " ++ input ++ " -> "), endl.
        cbn. now rewrite append_assoc.
    + intros _. apply input_reaches_the_importer.
    + paths (main_executions IOSROOT input output tk w argv0);
        unfold reader_initialized, created_null; cbn;
        intros Hok Hnone; try (exfalso; intuition discriminate);
        try reflexivity.
      exfalso. apply Hnone. unfold null_of. rewrite Hm, Hi, He.
      destruct (is_null ios), (is_null scene); cbn; auto.
  - intros x. subst x. rewrite (main_usage IOSROOT tk w argv0 args E).
    unfold reader_initialized. cbn.
    repeat split; try constructor; try discriminate.
    + intros H3. exfalso. apply E. injection H3. auto.
    + intros [].
Qed.

(** C8.  Every path [main] gives to an operation that reads or writes, the
    importer's initialization or the exporter's, is [argv[1]] or [argv[2]];
    it gives at most two. *)
Theorem C8_only_the_two_paths (w : W) (argv : list string) :
  let x := run tk (main IOSROOT argv) w in
  Forall (fun f => f = nth 1 argv "" \/ f = nth 2 argv "") (files (trace x)) /\
  (files (trace x) = [] \/
   files (trace x) = [nth 1 argv ""] \/
   files (trace x) = [nth 1 argv ""; nth 2 argv ""]).
Proof.
  destruct argv as [| argv0 args].
  { cbn. split; [constructor | auto]. }
  destruct (Nat.eq_dec (List.length args) 2) as [E | E].
  - destruct args as [| input [| output [| ? ?]]]; try discriminate E.
    intros x. subst x. cbn [nth].
    destruct (main_executions IOSROOT input output tk w argv0);
      unfold files; cbn;
      (split; [repeat (apply Forall_cons || apply Forall_nil); auto | auto]).
  - intros x. subst x. rewrite (main_usage IOSROOT tk w argv0 args E).
    cbn. split; [constructor | auto].
Qed.

(** Once the exporter's initialization has answered true, [main] returns 0
    and writes the success line: the answers of [Import] and [Export] play
    no part. *)
Lemma success_after_initialization (w : W) (argv0 input output : string) :
  let x := run tk (main IOSROOT [argv0; input; output]) w in
  writer_initialized (trace x) true ->
  status x = Exit 0%Z /\ console (trace x) = success_line input output.
Proof.
  intros x. subst x.
  destruct (main_executions IOSROOT input output tk w argv0);
    unfold writer_initialized; cbn; intros Hok;
    try (exfalso; intuition discriminate).
  split; reflexivity.
Qed.

End Success.

Lemma C5_same_scene_witness :
  let x := run Disk.tk (main IOSRoot ["upgrade_fbx"; "a.fbx"; "b.fbx"])
               (Disk.boot ["a.fbx"] []) in
  status x = Exit 0%Z /\
  pick imported_into (calls (trace x)) = [Ptr 4] /\
  pick exported_from (calls (trace x)) = [Ptr 4].
Proof.
  destruct (C5_same_scene IOSRoot Disk.tk (Disk.boot ["a.fbx"] [])
              "upgrade_fbx" "a.fbx" "b.fbx" eq_refl)
    as (mgr & scene & _ & Hi & He & _).
  repeat split.
Defined.

(** On a run with a readable source and a free destination both paths are
    given, each once, and both are in the success line. *)
Lemma C7_paths_verbatim_witness :
  let x := run Disk.tk (main IOSRoot ["upgrade_fbx"; "a.fbx"; "b.fbx"])
               (Disk.boot ["a.fbx"] []) in
  pick read_of (calls (trace x)) = ["a.fbx"] /\
  pick written_of (calls (trace x)) = ["b.fbx"] /\
  console (trace x) = success_line "a.fbx" "b.fbx".
Proof.
  destruct (C7_paths_verbatim IOSRoot Disk.tk (Disk.boot ["a.fbx"] [])
              ["upgrade_fbx"; "a.fbx"; "b.fbx"])
    as (_ & _ & Hexit & Hinput & Houtput).
  split; [| split].
  - apply Hinput; [reflexivity | reflexivity |].
    unfold created_null. vm_compute. intros [].
  - apply Houtput.
    + unfold reader_initialized. vm_compute. auto.
    + unfold created_null. vm_compute. intros [].
  - now apply Hexit.
Defined.

(** ** Releases *)

(** C6 as stated fails where the importer's initialization fails: the
    execution is not the one in which the exporter's initialization fails,
    and yet the manager and the importer it created are never released. *)
Lemma C6_import_failure_counterexample :
  let x := run Disk.tk (main IOSRoot ["upgrade_fbx"; "a.fbx"; "b.fbx"])
               (Disk.boot [] []) in
  ~ writer_initialized (trace x) false /\
  created (trace x) =
    [(FbxManager, 1%N); (FbxIOSettings, 2%N); (FbxImporter, 3%N)] /\
  released (trace x) = [] /\
  unreleased (trace x) = [(FbxManager, 1%N); (FbxImporter, 3%N)].
Proof. vm_compute. repeat split. intros []. Qed.

Section Releases.

Variable IOSROOT : string.
Context {W : Type}.
Variable tk : toolkit W.

(** No call of [main] releases a scene. *)
Lemma scene_never_released (w : W) (argv0 : string) (args : list string) :
  Forall (fun o => fst o <> FbxScene)
    (released (trace (run tk (main IOSROOT (argv0 :: args)) w))).
Proof.
  destruct (Nat.eq_dec (List.length args) 2) as [E | E].
  - destruct args as [| input [| output [| ? ?]]]; try discriminate E.
    destruct (main_executions IOSROOT input output tk w argv0);
      unfold released; cbn;
      repeat (apply Forall_cons || apply Forall_nil); cbn; discriminate.
  - rewrite (main_usage IOSROOT tk w argv0 args E). constructor.
Qed.

(** The releases of [main], path by path. *)
Lemma releases_by_path (w : W) (argv0 : string) (args : list string) :
  let x := run tk (main IOSROOT (argv0 :: args)) w in
  (status x = Exit 0%Z ->
     exists (mgr : ptr FbxManager) (imp : ptr FbxImporter) (exp : ptr FbxExporter),
       In (Called FbxManager_Create mgr) (trace x) /\
       In (Called (FbxImporter_Create mgr "") imp) (trace x) /\
       In (Called (FbxExporter_Create mgr "") exp) (trace x) /\
       released (trace x) = [obj imp; obj exp; obj mgr]) /\
  Forall (fun o => fst o <> FbxScene) (released (trace x)) /\
  (status x = Exit 1%Z -> pick reader_answer (trace x) = [] ->
     created (trace x) = [] /\ released (trace x) = []) /\
  (writer_initialized (trace x) false ->
     exists (mgr : ptr FbxManager) (imp : ptr FbxImporter) (scene : ptr FbxScene),
       In (Called FbxManager_Create mgr) (trace x) /\
       In (Called (FbxImporter_Create mgr "") imp) (trace x) /\
       In (Called (FbxScene_Create mgr "") scene) (trace x) /\
       In (obj imp) (released (trace x)) /\
       In (obj mgr) (unreleased (trace x)) /\
       (is_null scene = false -> In (obj scene) (unreleased (trace x)))).
Proof.
  intros x.
  split; [| split; [apply scene_never_released |]]; subst x.
  - destruct (Nat.eq_dec (List.length args) 2) as [E | E].
    + destruct args as [| input [| output [| ? ?]]]; try discriminate E.
      destruct (main_executions IOSROOT input output tk w argv0) as
        [ mgr Hm
        | mgr ios imp settings Hm Hi
        | mgr ios imp settings err Hm Hi
        | mgr ios imp settings scene imported exp settings' Hm Hi He
        | mgr ios imp settings scene imported exp settings' err Hm Hi He
        | mgr ios imp settings scene imported exp settings' exported Hm Hi He ];
        cbn; intros Hexit; try discriminate Hexit.
      exists mgr, imp, exp. repeat split; auto; found.
    + rewrite (main_usage IOSROOT tk w argv0 args E). discriminate.
  - destruct (Nat.eq_dec (List.length args) 2) as [E | E].
    + destruct args as [| input [| output [| ? ?]]]; try discriminate E.
      destruct (main_executions IOSROOT input output tk w argv0) as
        [ mgr Hm
        | mgr ios imp settings Hm Hi
        | mgr ios imp settings err Hm Hi
        | mgr ios imp settings scene imported exp settings' Hm Hi He
        | mgr ios imp settings scene imported exp settings' err Hm Hi He
        | mgr ios imp settings scene imported exp settings' exported Hm Hi He ];
        unfold writer_initialized; cbn;
        (split; [intros Hexit Hnone; try discriminate Hexit; try discriminate Hnone
                | intros Hfail; try (exfalso; intuition discriminate)]).
      * unfold created, released, some_object. cbn. now rewrite Hm.
      * exists mgr, imp, scene.
        unfold unreleased, is_released, created, released, some_object.
        cbn. rewrite Hm, Hi, He.
        repeat split; auto 10.
        -- destruct (is_null ios), (is_null scene); cbn; auto.
        -- intros Hs. rewrite Hs.
           destruct (is_null ios); cbn;
             rewrite N.eqb_refl; cbn; auto.
    + rewrite (main_usage IOSROOT tk w argv0 args E).
      unfold writer_initialized. cbn. split; [auto | intros []].
Qed.

(** When [main] returns 0, a scene is all that is left without a release
    of its own. *)
Lemma only_the_scene_left (w : W) (argv0 : string) (args : list string) :
  let x := run tk (main IOSROOT (argv0 :: args)) w in
  status x = Exit 0%Z ->
  Forall (fun o => fst o = FbxScene) (unreleased (trace x)).
Proof.
  destruct (Nat.eq_dec (List.length args) 2) as [E | E].
  - destruct args as [| input [| output [| ? ?]]]; try discriminate E.
    intros x. subst x.
    paths (main_executions IOSROOT input output tk w argv0);
      cbn; intros Hexit; try discriminate Hexit.
    unfold unreleased, is_released, created, released, some_object.
    cbn. rewrite Hm, Hi, He.
    destruct (is_null ios), (is_null scene); cbn;
      rewrite ?N.eqb_refl; cbn; rewrite ?orb_true_r; cbn;
      repeat (apply Forall_cons || apply Forall_nil); reflexivity.
  - intros x. subst x. rewrite (main_usage IOSROOT tk w argv0 args E).
    discriminate.
Qed.

(** C6, amended.  When [main] returns 0 its releases are three, each of an
    object it created: the importer, then the exporter, then the manager;
    a scene is then the only thing left without a release of its own.  On
    no path does a call release a scene.  An execution that returns 1
    before an importer is initialised (wrong argument count, no manager)
    created nothing and releases nothing.  When the exporter's
    initialization fails, the importer has been released, and the scene and
    the manager are among the objects left unreleased.  The three releases
    do happen: with two arguments, whenever no creation of a manager,
    importer or exporter answers null and no initialization answers
    false. *)
Theorem C6_releases (w : W) (argv0 : string) (args : list string) :
  let x := run tk (main IOSROOT (argv0 :: args)) w in
  (status x = Exit 0%Z ->
     exists (mgr : ptr FbxManager) (imp : ptr FbxImporter) (exp : ptr FbxExporter),
       In (Called FbxManager_Create mgr) (trace x) /\
       In (Called (FbxImporter_Create mgr "") imp) (trace x) /\
       In (Called (FbxExporter_Create mgr "") exp) (trace x) /\
       released (trace x) = [obj imp; obj exp; obj mgr]) /\
  Forall (fun o => fst o <> FbxScene) (released (trace x)) /\
  (status x = Exit 1%Z -> pick reader_answer (trace x) = [] ->
     created (trace x) = [] /\ released (trace x) = []) /\
  (writer_initialized (trace x) false ->
     exists (mgr : ptr FbxManager) (imp : ptr FbxImporter) (scene : ptr FbxScene),
       In (Called FbxManager_Create mgr) (trace x) /\
       In (Called (FbxImporter_Create mgr "") imp) (trace x) /\
       In (Called (FbxScene_Create mgr "") scene) (trace x) /\
       In (obj imp) (released (trace x)) /\
       In (obj mgr) (unreleased (trace x)) /\
       (is_null scene = false -> In (obj scene) (unreleased (trace x)))) /\
  (status x = Exit 0%Z ->
     Forall (fun o => fst o = FbxScene) (unreleased (trace x))) /\
  (List.length args = 2%nat ->
   ~ created_null (trace x) FbxManager ->
   ~ created_null (trace x) FbxImporter ->
   ~ created_null (trace x) FbxExporter ->
   ~ reader_initialized (trace x) false ->
   ~ writer_initialized (trace x) false ->
     exists (mgr : ptr FbxManager) (imp : ptr FbxImporter) (exp : ptr FbxExporter),
       released (trace x) = [obj imp; obj exp; obj mgr]).
Proof.
  intros x. subst x.
  pose proof (releases_by_path w argv0 args) as H. cbv zeta in H.
  destruct H as (H1 & H2 & H3 & H4).
  repeat (split; [assumption |]).
  split; [apply only_the_scene_left |].
  intros E Hmgr Himp Hexp Hread Hwrite.
  destruct args as [| input [| output [| ? ?]]]; try discriminate E.
  destruct H1 as (mgr & imp & exp & _ & _ & _ & Hthree).
  { now apply exit_zero_when_nothing_fails. }
  exists mgr, imp, exp. exact Hthree.
Qed.

End Releases.

(** The releases on a run that returns 0, and the importer's on a run
    whose destination is locked. *)
Lemma C6_releases_witness :
  let x := run Disk.tk (main IOSRoot ["upgrade_fbx"; "a.fbx"; "b.fbx"])
               (Disk.boot ["a.fbx"] []) in
  let y := run Disk.tk (main IOSRoot ["upgrade_fbx"; "a.fbx"; "b.fbx"])
               (Disk.boot ["a.fbx"] ["b.fbx"]) in
  (exists (mgr : ptr FbxManager) (imp : ptr FbxImporter) (exp : ptr FbxExporter),
     released (trace x) = [obj imp; obj exp; obj mgr]) /\
  Forall (fun o => fst o = FbxScene) (unreleased (trace x)) /\
  (exists imp : ptr FbxImporter, In (obj imp) (released (trace y))).
Proof.
  destruct (C6_releases IOSRoot Disk.tk (Disk.boot ["a.fbx"] [])
              "upgrade_fbx" ["a.fbx"; "b.fbx"])
    as (Hthree & _ & _ & _ & Hleft & _).
  destruct (C6_releases IOSRoot Disk.tk (Disk.boot ["a.fbx"] ["b.fbx"])
              "upgrade_fbx" ["a.fbx"; "b.fbx"])
    as (_ & _ & _ & Hlocked & _).
  split; [| split].
  - destruct (Hthree eq_refl) as (mgr & imp & exp & _ & _ & _ & Hr).
    exists mgr, imp, exp. exact Hr.
  - exact (Hleft eq_refl).
  - assert (Hfail : writer_initialized
                      (trace (run Disk.tk (main IOSRoot ["upgrade_fbx"; "a.fbx"; "b.fbx"])
                                  (Disk.boot ["a.fbx"] ["b.fbx"]))) false)
      by (vm_compute; auto).
    destruct (Hlocked Hfail) as (mgr & imp & scene & _ & _ & _ & Hr & _).
    exists imp. exact Hr.
Defined.

(** ** The round trip of [main] *)

Section RoundTripOfMain.

Variable IOSROOT : string.
Context {W : Type}.
Variable tk : toolkit W.


End RoundTripOfMain.

(** ** The file-system toolkit supplies the round trip *)





(** ** Beyond the exit paths: answers, pointers and lifetimes *)

Section Conduct.

Variable IOSROOT : string.
Context {W : Type}.
Variable tk : toolkit W.

(** The three checks tell a trace that breaks them from one that keeps
    them. *)
Example scoped_refuses_a_made_up_pointer :
  ~ scoped [] [Called FbxManager_Create (Ptr 1);
               Called (FbxImporter_Create (Ptr 2) "") (Ptr 3)].
Proof.
  cbn. intros (_ & H & _). inversion H as [| ? ? [E | []] ?]. discriminate E.
Qed.

Example released_for_good_refuses_a_late_use :
  released_for_good [FbxObject_Destroy FbxImporter (Ptr 3);
                     FbxImporter_Import (Ptr 3) (Ptr 4)] = false.
Proof. reflexivity. Qed.

Example reader_with_writer_sees_both :
  reader_with_writer false [FbxImporter_Create (Ptr 1) "";
                            FbxExporter_Create (Ptr 1) ""] = true.
Proof. reflexivity. Qed.

(** X1.  [main] does not look at what [Import] and [Export] answer (lines
    40 and 55): once the exporter's initialization has answered true it
    calls both exactly once, returns 0 and writes the success line,
    whatever the two answers are. *)
Theorem results_of_import_and_export_dropped (w : W) (argv0 input output : string) :
  let x := run tk (main IOSROOT [argv0; input; output]) w in
  writer_initialized (trace x) true ->
  (exists imported exported : bool,
     pick import_answer (trace x) = [imported] /\
     pick export_answer (trace x) = [exported]) /\
  status x = Exit 0%Z /\
  console (trace x) = success_line input output.
Proof.
  intros x. subst x. paths (main_executions IOSROOT input output tk w argv0);
    unfold writer_initialized; cbn; intros Hok;
    try (exfalso; intuition discriminate).
  split; [exists imported, exported; split; reflexivity | split; reflexivity].
Qed.

(** X2.  [main] tests the manager pointer and no other.  Its execution is
    undefined exactly when there is no program name ([argc = 0]), or the
    creation of the importer answered null, or that of the exporter did; a
    null manager, I/O settings object or scene never makes it so.  When it
    returns, it returns 0 or 1. *)
Theorem undefined_exactly_on_unchecked_null (w : W) (argv : list string) :
  let x := run tk (main IOSROOT argv) w in
  (status x = Crash <->
     argv = [] \/
     In FbxImporter (pick null_answer (trace x)) \/
     In FbxExporter (pick null_answer (trace x))) /\
  (forall code : Z, status x = Exit code -> code = 0%Z \/ code = 1%Z).
Proof.
  destruct argv as [| argv0 args].
  { cbn. split; [tauto | discriminate]. }
  destruct (Nat.eq_dec (List.length args) 2) as [E | E].
  - destruct args as [| input [| output [| ? ?]]]; try discriminate E.
    intros x. subst x. paths (main_executions IOSROOT input output tk w argv0);
      cbn; unfold null_of; rewrite ?Hm, ?Hi, ?He;
      try destruct (is_null ios); try destruct (is_null scene); cbn;
      (split; [ intuition (discriminate || congruence)
              | intros code Hc; inversion Hc; auto ]).
  - intros x. subst x. rewrite (main_usage IOSROOT tk w argv0 args E). cbn.
    split; [intuition (discriminate || congruence)
           | intros code Hc; inversion Hc; auto].
Qed.

(** X3.  The success line is the output of [main] exactly when it returns
    0: no execution that returns 1, or is undefined, has written it, and
    every execution that returns 0 has written it and nothing else. *)
Theorem success_line_iff_exit_zero (w : W) (argv : list string) :
  let x := run tk (main IOSROOT argv) w in
  status x = Exit 0%Z <->
  console (trace x) = success_line (nth 1 argv "") (nth 2 argv "").
Proof.
  destruct argv as [| argv0 args].
  { cbn. split; discriminate. }
  destruct (Nat.eq_dec (List.length args) 2) as [E | E].
  - destruct args as [| input [| output [| ? ?]]]; try discriminate E.
    intros x. subst x. cbn [nth]. paths (main_executions IOSROOT input output tk w argv0);
      cbn; split; intros H; try discriminate H; reflexivity.
  - intros x. subst x. rewrite (main_usage IOSROOT tk w argv0 args E). cbn.
    split; discriminate.
Qed.

(** X4.  Every pointer [main] gives to the toolkit, as the object of a
    member call or as an argument, is one the toolkit answered earlier in
    the same execution: the manager from [FbxManager::Create], the settings
    given to each [Initialize] from the [GetIOSettings] before it, and so
    on.  [main] makes up no pointer. *)
Theorem pointers_come_from_the_toolkit (w : W) (argv : list string) :
  scoped [] (trace (run tk (main IOSROOT argv) w)).
Proof.
  destruct argv as [| argv0 args].
  { cbn. exact I. }
  destruct (Nat.eq_dec (List.length args) 2) as [E | E].
  - destruct args as [| input [| output [| ? ?]]]; try discriminate E.
    paths (main_executions IOSROOT input output tk w argv0); cbn;
      repeat (split;
              [ repeat (apply Forall_cons || apply Forall_nil);
                cbn; repeat (first [left; reflexivity | right]) | ]);
      exact I.
  - rewrite (main_usage IOSROOT tk w argv0 args E). cbn. exact I.
Qed.

(** X5.  [main] gives no object to the toolkit after the call that released
    it, and releases no object twice. *)
Theorem no_use_after_release (w : W) (argv : list string) :
  let x := run tk (main IOSROOT argv) w in
  released_for_good (calls (trace x)) = true /\
  NoDup (released (trace x)).
Proof.
  destruct argv as [| argv0 args].
  { cbn. split; [reflexivity | constructor]. }
  destruct (Nat.eq_dec (List.length args) 2) as [E | E].
  - destruct args as [| input [| output [| ? ?]]]; try discriminate E.
    intros x. subst x. paths (main_executions IOSROOT input output tk w argv0);
      unfold released; cbn; (split; [reflexivity |]);
      repeat (apply NoDup_cons; [cbn; intuition discriminate |]);
      apply NoDup_nil.
  - intros x. subst x. rewrite (main_usage IOSROOT tk w argv0 args E). cbn.
    split; [reflexivity | constructor].
Qed.

(** X6.  The importer and the exporter are never held together: in every
    execution the importer has been released (line 41) by the time the
    exporter is created (line 44). *)
Theorem importer_released_before_exporter_created (w : W) (argv : list string) :
  reader_with_writer false (calls (trace (run tk (main IOSROOT argv) w))) = false.
Proof.
  destruct argv as [| argv0 args].
  { reflexivity. }
  destruct (Nat.eq_dec (List.length args) 2) as [E | E].
  - destruct args as [| input [| output [| ? ?]]]; try discriminate E.
    paths (main_executions IOSROOT input output tk w argv0); reflexivity.
  - rewrite (main_usage IOSROOT tk w argv0 args E). reflexivity.
Qed.

(** X7.  The two returns after a failed initialization release nothing.
    When the importer's fails (lines 30 to 34) no call releases anything,
    and the manager and the importer stay unreleased.  When the exporter's
    fails (lines 48 to 52) the importer's release is the only one, and the
    manager and the exporter stay unreleased. *)
Theorem early_returns_release_nothing (w : W) (argv0 input output : string) :
  let x := run tk (main IOSROOT [argv0; input; output]) w in
  (reader_initialized (trace x) false ->
     released (trace x) = [] /\
     exists (mgr : ptr FbxManager) (imp : ptr FbxImporter),
       In (Called FbxManager_Create mgr) (trace x) /\
       In (Called (FbxImporter_Create mgr "") imp) (trace x) /\
       In (obj mgr) (unreleased (trace x)) /\
       In (obj imp) (unreleased (trace x))) /\
  (writer_initialized (trace x) false ->
     exists (mgr : ptr FbxManager) (imp : ptr FbxImporter) (exp : ptr FbxExporter),
       In (Called FbxManager_Create mgr) (trace x) /\
       In (Called (FbxImporter_Create mgr "") imp) (trace x) /\
       In (Called (FbxExporter_Create mgr "") exp) (trace x) /\
       released (trace x) = [obj imp] /\
       In (obj mgr) (unreleased (trace x)) /\
       In (obj exp) (unreleased (trace x))).
Proof.
  intros x. subst x. paths (main_executions IOSROOT input output tk w argv0);
    unfold reader_initialized, writer_initialized; cbn;
    (split; intros Hfail; try (exfalso; intuition discriminate)).
  - split; [reflexivity |]. exists mgr, imp.
    unfold unreleased, is_released, created, released, some_object.
    cbn. rewrite Hm, Hi.
    repeat split; try found; destruct (is_null ios); cbn; auto.
  - exists mgr, imp, exp.
    unfold unreleased, is_released, created, released, some_object.
    cbn. rewrite Hm, Hi, He.
    repeat split; try found;
      destruct (is_null ios), (is_null scene); cbn;
      rewrite ?N.eqb_refl; cbn; auto 10.
Qed.

End Conduct.

Lemma results_of_import_and_export_dropped_witness :
  let x := run Idle.tk (main IOSRoot ["upgrade_fbx"; "a.fbx"; "b.fbx"]) tt in
  pick import_answer (trace x) = [false] /\
  pick export_answer (trace x) = [false] /\
  status x = Exit 0%Z /\
  console (trace x) = success_line "a.fbx" "b.fbx".
Proof.
  assert (H : writer_initialized
                (trace (run Idle.tk (main IOSRoot ["upgrade_fbx"; "a.fbx"; "b.fbx"]) tt))
                true)
    by (vm_compute; auto).
  destruct (results_of_import_and_export_dropped IOSRoot Idle.tk tt
              "upgrade_fbx" "a.fbx" "b.fbx" H) as (_ & Hs & Hc).
  repeat split; assumption.
Defined.
